(** * WindowedList: the windowing controller of dashboardv2

    A shallow embedding of [dashboardv2/src/WindowedList.tsx]: scroll-anchor
    discovery, height measurement, the scroll handler, the per-item
    render/teardown protocol and the three callbacks handed to item
    wrappers ([onItemRender], [shouldItemRender], [getItemDimensions]).

    Modelling conventions.
    - A JavaScript [number] that holds a pixel quantity is an IEEE-754
      binary64 value ([spec_float] at precision 53, emax 1024), with one NaN.
    - An item index, [visibleIndexTop] and [visibleLength] are integer-valued
      numbers; they are modelled as [Z] (on integers in the safe range the
      JavaScript [+], [<=] and [>] agree with those of [Z]).
    - The DOM is read through snapshots: an [HTMLElement] carries its parent
      chain, its computed style and its client rectangles; object identity
      ([===]) is the [nodeId].
    - The component's mutable cells (the two [Map]s, [scrollParentRef],
      [willUnmountFns]), the listener registry of the DOM and the position
      index are the fields of one [World]; every callback is a computation in
      a state monad over it, and every call that leaves the component is
      appended to [trace]. *)

From Stdlib Require Import ZArith Bool Ascii String Floats.SpecFloat.
From stdpp Require Import base option list gmap strings.

Local Open Scope Z_scope.

(** ** JavaScript numbers *)

Module JS.

Definition number : Type := spec_float.

Definition prec : Z := 53.
Definition emax : Z := 1024.

Definition NaN : number := S754_nan.
Definition zero : number := S754_zero false.

Definition add (x y : number) : number := SFadd prec emax x y.
Definition sub (x y : number) : number := SFsub prec emax x y.

Definition isNaN (x : number) : bool :=
  match x with S754_nan => true | _ => false end.

(** [x < 0] as JavaScript evaluates it (false on NaN and on both zeros). *)
Definition ltb (x y : number) : bool := SFltb x y.

(** [Math.max(x, y)]: NaN if either argument is NaN, [+0] above [-0],
    otherwise the larger argument. *)
Definition Math_max (x y : number) : number :=
  match x, y with
  | S754_nan, _ | _, S754_nan => NaN
  | S754_zero sx, S754_zero sy => S754_zero (sx && sy)
  | _, _ => if SFltb x y then y else x
  end.

(** The number value of the decimal literal [m * 10^e] ([m >= 0]),
    rounded to nearest, ties to even. *)
Definition of_decimal (m e : Z) : number :=
  if 0 <=? e then binary_normalize prec emax (m * 10 ^ e) 0 false
  else
    match m, 10 ^ (- e) with
    | Zpos pm, Zpos pd =>
        SFdiv prec emax (S754_finite false pm 0) (S754_finite false pd 0)
    | _, _ => zero
    end.

(** *** [parseFloat]

    The argument is trimmed of leading white space, then its longest prefix
    that is a [StrDecimalLiteral] is converted; NaN when there is none.
    Strings are sequences of 8-bit characters here, so white space is the
    ASCII part of the ECMAScript set (TAB, LF, VT, FF, CR, SP). *)

Definition is_white_space (c : ascii) : bool :=
  let n := Z.of_nat (nat_of_ascii c) in
  ((9 <=? n) && (n <=? 13)) || (n =? 32).

Fixpoint trim_start (s : string) : string :=
  match s with
  | String c s' => if is_white_space c then trim_start s' else s
  | EmptyString => EmptyString
  end.

Definition digit_of (c : ascii) : option Z :=
  let n := Z.of_nat (nat_of_ascii c) in
  if (48 <=? n) && (n <=? 57) then Some (n - 48) else None.

(** [DecimalDigits]: reads the longest run of digits of [s], continuing the
    value [acc]; returns the value, the number of digits read and the rest. *)
Fixpoint decimal_digits (s : string) (acc cnt : Z) : Z * Z * string :=
  match s with
  | String c s' =>
      match digit_of c with
      | Some d => decimal_digits s' (10 * acc + d) (cnt + 1)
      | None => (acc, cnt, s)
      end
  | EmptyString => (acc, cnt, s)
  end.

(** [ExponentPart], optional: [e] or [E], an optional sign, at least one
    digit. A malformed exponent is not part of the longest prefix. *)
Definition exponent_part (s : string) : Z :=
  match s with
  | String c s' =>
      if (c =? "e")%char || (c =? "E")%char then
        let '(neg, s'') :=
          match s' with
          | String "-"%char t => (true, t)
          | String "+"%char t => (false, t)
          | _ => (false, s')
          end in
        let '(v, cnt, _) := decimal_digits s'' 0 0 in
        if cnt =? 0 then 0 else if neg then - v else v
      else 0
  | EmptyString => 0
  end.

(** [StrUnsignedDecimalLiteral] as a magnitude; [None] when [s] has no
    prefix of that form. *)
Definition unsigned_decimal_literal (s : string) : option number :=
  if String.prefix "Infinity" s then Some (S754_infinity false)
  else
    let '(mi, ni, rest) := decimal_digits s 0 0 in
    match rest with
    | String "."%char rest' =>
        let '(m, nf, rest'') := decimal_digits rest' mi 0 in
        if (ni =? 0) && (nf =? 0) then None
        else
          Some (of_decimal m
                  ((if nf =? 0 then exponent_part rest' else exponent_part rest'') - nf))
    | _ =>
        if ni =? 0 then None else Some (of_decimal mi (exponent_part rest))
    end.

Definition parseFloat (input : string) : number :=
  let s := trim_start input in
  let '(neg, body) :=
    match s with
    | String "-"%char t => (true, t)
    | String "+"%char t => (false, t)
    | _ => (false, s)
    end in
  match unsigned_decimal_literal body with
  | Some v => if neg then SFopp v else v
  | None => NaN
  end.

End JS.

Import JS.

(** ** The DOM as the component reads it *)

(** The part of a [DOMRect] that [calcItemDimensions] reads
    ([rect.top], [rect.height]). *)
Record DOMRect : Type := { top : number; height : number }.

(** [window.getComputedStyle(node)]: the [overflowY] attribute and the
    [getPropertyValue] method. *)
Record CSSStyleDeclaration : Type :=
  { overflowY : string;
    getPropertyValue : string -> string }.

(** An element with its chain of ancestors. [nodeId] stands for the identity
    of the object. *)
#[local] Unset Elimination Schemes.
Inductive HTMLElement : Type :=
  mkHTMLElement
    { nodeId : positive;
      parentElement : option HTMLElement;
      getComputedStyle : CSSStyleDeclaration;
      getClientRects : list DOMRect }.
#[local] Set Elimination Schemes.

(** [HTMLElement | Window] *)
Inductive EventTarget : Type :=
| Window
| Element (node : HTMLElement).

(** [a === b] on event targets. *)
Definition same_target (a b : EventTarget) : bool :=
  match a, b with
  | Window, Window => true
  | Element x, Element y => Pos.eqb (nodeId x) (nodeId y)
  | _, _ => false
  end.

(** What a scroll handler can read when it runs: [window.scrollY] and the
    [scrollTop] of each element. *)
Record ScrollOffsets : Type :=
  { scrollY : number;
    scrollTop : positive -> number }.

(** *** [findScrollParent] *)

Definition scrolls (node : HTMLElement) : bool :=
  String.eqb (overflowY (getComputedStyle node)) "auto"
  || String.eqb (overflowY (getComputedStyle node)) "scroll".

(** The computed vertical overflow makes the node a scroll container. *)
Definition scrollable (node : HTMLElement) : Prop :=
  overflowY (getComputedStyle node) = "auto"
  \/ overflowY (getComputedStyle node) = "scroll".

Fixpoint findScrollParentFrom (node : HTMLElement) : EventTarget :=
  if String.eqb (overflowY (getComputedStyle node)) "auto" then Element node
  else if String.eqb (overflowY (getComputedStyle node)) "scroll" then Element node
  else
    match parentElement node with
    | Some parent => findScrollParentFrom parent
    | None => Window
    end.

Definition findScrollParent (node : option HTMLElement) : EventTarget :=
  match node with
  | Some n => findScrollParentFrom n
  | None => Window
  end.

(** The chain the loop of [findScrollParent] visits: the node, its parent,
    and so on up to the root. *)
Fixpoint ancestors_from (node : HTMLElement) : list HTMLElement :=
  node :: match parentElement node with
          | Some parent => ancestors_from parent
          | None => []
          end.

Definition ancestor_chain (node : option HTMLElement) : list HTMLElement :=
  match node with
  | Some n => ancestors_from n
  | None => []
  end.

(** *** [calcItemDimensions] *)

Record ItemDimensions : Type := { dim_top : number; dim_height : number }.

Definition calcItemDimensions (node : HTMLElement) : option ItemDimensions :=
  match head (getClientRects node) with
  | None => None
  | Some rect =>
      let style := getComputedStyle node in
      let margin :=
        add (parseFloat (getPropertyValue style "margin-top"))
            (parseFloat (getPropertyValue style "margin-bottom")) in
      Some {| dim_top := top rect; dim_height := add (height rect) margin |}
  end.

(** Height measurement as section 4.2 of the specification words it: a
    margin that does not parse contributes 0. Stated for comparison with
    [calcItemDimensions]; the component does not call it. *)
Definition margin_or_zero (s : string) : number :=
  if isNaN (parseFloat s) then zero else parseFloat s.

Definition calcItemDimensions_defaulting (node : HTMLElement) : option ItemDimensions :=
  match head (getClientRects node) with
  | None => None
  | Some rect =>
      let style := getComputedStyle node in
      let margin :=
        add (margin_or_zero (getPropertyValue style "margin-top"))
            (margin_or_zero (getPropertyValue style "margin-bottom")) in
      Some {| dim_top := top rect; dim_height := add (height rect) margin |}
  end.

(** ** Values read back from the dimensions map *)

(** [Map<number, ItemDimensions | null>.get] answers [undefined] for a
    missing key. *)
Inductive Lookup : Type :=
| undefined
| null
| object (d : ItemDimensions).

Definition Map_get (m : gmap Z (option ItemDimensions)) (index : Z) : Lookup :=
  match m !! index with
  | None => undefined
  | Some None => null
  | Some (Some d) => object d
  end.

(** [v || null] *)
Definition or_null (v : Lookup) : Lookup :=
  match v with
  | object d => object d
  | undefined | null => null
  end.

(** ** The position index *)

(** Modelled from the spec: the class [WindowedListState] (imported from
    [./WindowedListState]) is not among the sources. Its interface is what
    [WindowedList.tsx] uses of it: the two read-only fields and the two
    update operations of section 4.6. *)
Class PositionIndex (PI : Type) : Type :=
  { visibleIndexTop : PI -> Z;
    visibleLength : PI -> Z;
    updateScrollPosition : number -> PI -> PI;
    updateHeightAtIndex : Z -> number -> PI -> PI }.

(** Modelled from the spec: the invariant section 3 requires of the visible
    window of a position index over [N] items. *)
Definition window_in_range `{PositionIndex PI} (N : Z) (st : PI) : Prop :=
  0 <= visibleIndexTop st /\ visibleIndexTop st + visibleLength st <= N.

(** ** Calls that leave the component *)

Inductive Event : Type :=
| CallUpdateScrollPosition (offset : number)
| CallUpdateHeightAtIndex (index : Z) (h : number)
| CallFindScrollParent (node : option HTMLElement)
| CallAddEventListener (target : EventTarget)
| CallRemoveEventListener (target : EventTarget).

Definition is_position_index_call (e : Event) : bool :=
  match e with
  | CallUpdateScrollPosition _ | CallUpdateHeightAtIndex _ _ => true
  | _ => false
  end.

Definition is_discovery (e : Event) : bool :=
  match e with CallFindScrollParent _ => true | _ => false end.

Definition is_listener_attach (e : Event) : bool :=
  match e with CallAddEventListener _ => true | _ => false end.

Definition position_index_calls (t : list Event) : list Event :=
  List.filter is_position_index_call t.

Definition discoveries (t : list Event) : nat :=
  length (List.filter is_discovery t).

Definition listener_attachments (t : list Event) : nat :=
  length (List.filter is_listener_attach t).

(** A callback pushed on [willUnmountFns]. The only closure the component
    registers removes the scroll listener from the anchor it captured. *)
Inductive TeardownFn : Type :=
| RemoveScrollListener (scrollParentNode : EventTarget).

Definition teardown_event (fn : TeardownFn) : Event :=
  match fn with
  | RemoveScrollListener t => CallRemoveEventListener t
  end.

(** [ResizeObserver]: the map of observers is allocated and read, never
    written (the branch that would fill it is commented out). *)
Definition ResizeObserver : Type := unit.

(** ** The component *)

Section Controller.

Context {PI : Type} `{PositionIndex PI}.

(** Everything a callback of one mounted [WindowedList] can read or write.
    [state] and [thresholdTop] are the props; the next four fields are the
    cells allocated by [React.useMemo]; [scrollListeners] is the part of the
    DOM's listener registry that concerns [handleScroll]: the targets it is
    currently registered on. *)
Record World : Type :=
  { state : PI;
    thresholdTop : number;
    itemDimensions : gmap Z (option ItemDimensions);
    itemResizeObservers : gmap Z ResizeObserver;
    scrollParentRef : option EventTarget;
    willUnmountFns : list TeardownFn;
    scrollListeners : list EventTarget;
    trace : list Event }.

Definition set_state (f : PI -> PI) (w : World) : World :=
  {| state := f (state w); thresholdTop := thresholdTop w;
     itemDimensions := itemDimensions w;
     itemResizeObservers := itemResizeObservers w;
     scrollParentRef := scrollParentRef w; willUnmountFns := willUnmountFns w;
     scrollListeners := scrollListeners w; trace := trace w |}.

Definition set_itemDimensions
    (f : gmap Z (option ItemDimensions) -> gmap Z (option ItemDimensions))
    (w : World) : World :=
  {| state := state w; thresholdTop := thresholdTop w;
     itemDimensions := f (itemDimensions w);
     itemResizeObservers := itemResizeObservers w;
     scrollParentRef := scrollParentRef w; willUnmountFns := willUnmountFns w;
     scrollListeners := scrollListeners w; trace := trace w |}.

Definition set_scrollParentRef (v : option EventTarget) (w : World) : World :=
  {| state := state w; thresholdTop := thresholdTop w;
     itemDimensions := itemDimensions w;
     itemResizeObservers := itemResizeObservers w;
     scrollParentRef := v; willUnmountFns := willUnmountFns w;
     scrollListeners := scrollListeners w; trace := trace w |}.

Definition set_willUnmountFns
    (f : list TeardownFn -> list TeardownFn) (w : World) : World :=
  {| state := state w; thresholdTop := thresholdTop w;
     itemDimensions := itemDimensions w;
     itemResizeObservers := itemResizeObservers w;
     scrollParentRef := scrollParentRef w; willUnmountFns := f (willUnmountFns w);
     scrollListeners := scrollListeners w; trace := trace w |}.

Definition set_scrollListeners
    (f : list EventTarget -> list EventTarget) (w : World) : World :=
  {| state := state w; thresholdTop := thresholdTop w;
     itemDimensions := itemDimensions w;
     itemResizeObservers := itemResizeObservers w;
     scrollParentRef := scrollParentRef w; willUnmountFns := willUnmountFns w;
     scrollListeners := f (scrollListeners w); trace := trace w |}.

Definition set_trace (f : list Event -> list Event) (w : World) : World :=
  {| state := state w; thresholdTop := thresholdTop w;
     itemDimensions := itemDimensions w;
     itemResizeObservers := itemResizeObservers w;
     scrollParentRef := scrollParentRef w; willUnmountFns := willUnmountFns w;
     scrollListeners := scrollListeners w; trace := f (trace w) |}.

(** The component at mount, before any callback has run. *)
Definition mount (st : PI) (threshold : number) : World :=
  {| state := st; thresholdTop := threshold;
     itemDimensions := ∅; itemResizeObservers := ∅;
     scrollParentRef := None; willUnmountFns := [];
     scrollListeners := []; trace := [] |}.

(** *** A state monad over [World] *)

Definition Ctl (A : Type) : Type := World -> A * World.

#[export] Instance Ctl_ret : MRet Ctl := fun A (a : A) w => (a, w).

#[export] Instance Ctl_bind : MBind Ctl :=
  fun A B (k : A -> Ctl B) (c : Ctl A) w => let '(a, w') := c w in k a w'.

Definition ret {A} (a : A) : Ctl A := mret a.

Definition gets {A} (f : World -> A) : Ctl A := fun w => (f w, w).

Definition modify (f : World -> World) : Ctl unit := fun w => (tt, f w).

Definition emit (e : Event) : Ctl unit := modify (set_trace (fun t => t ++ [e])).

Definition eval {A} (c : Ctl A) (w : World) : A := fst (c w).
Definition exec {A} (c : Ctl A) (w : World) : World := snd (c w).

(** [array.forEach(f)] *)
Fixpoint forEach {A} (l : list A) (f : A -> Ctl unit) : Ctl unit :=
  match l with
  | [] => ret tt
  | x :: l' => f x;; forEach l' f
  end.

(** *** Calls into the position index and the DOM *)

Definition state_updateScrollPosition (offset : number) : Ctl unit :=
  modify (set_state (updateScrollPosition offset));;
  emit (CallUpdateScrollPosition offset).

Definition state_updateHeightAtIndex (index : Z) (h : number) : Ctl unit :=
  modify (set_state (updateHeightAtIndex index h));;
  emit (CallUpdateHeightAtIndex index h).

(** [target.addEventListener('scroll', handleScroll, false)]: a listener
    already registered on the target is not registered twice. *)
Definition addEventListener (target : EventTarget) : Ctl unit :=
  modify (set_scrollListeners
            (fun ls => if existsb (same_target target) ls then ls
                       else ls ++ [target]));;
  emit (CallAddEventListener target).

(** [target.removeEventListener('scroll', handleScroll, false)] *)
Definition removeEventListener (target : EventTarget) : Ctl unit :=
  modify (set_scrollListeners
            (List.filter (fun t => negb (same_target target t))));;
  emit (CallRemoveEventListener target).

Definition run_teardown (fn : TeardownFn) : Ctl unit :=
  match fn with
  | RemoveScrollListener scrollParentNode => removeEventListener scrollParentNode
  end.

(** *** The callbacks of [WindowedList] *)

Definition getScrollTop (dom : ScrollOffsets) : Ctl number :=
  ref ← gets scrollParentRef;
  match ref with
  | None => ret zero
  | Some Window => ret (scrollY dom)
  | Some (Element e) => ret (scrollTop dom (nodeId e))
  end.

Definition handleScroll (dom : ScrollOffsets) : Ctl unit :=
  raw ← getScrollTop dom;
  threshold ← gets thresholdTop;
  let scrollTop := Math_max zero (sub raw threshold) in
  state_updateScrollPosition scrollTop.

Definition onItemRender (index : Z) (node : option HTMLElement) : Ctl unit :=
  match node with
  | None => ret tt
  | Some node =>
      observer ← gets (fun w => itemResizeObservers w !! index);
      (match observer with
       | None => ret tt (* the observer branch is commented out *)
       | Some _ => ret tt
       end);;
      let dimensions := calcItemDimensions node in
      modify (set_itemDimensions (fun m => <[index := dimensions]> m));;
      (match dimensions with
       | Some d => state_updateHeightAtIndex index (dim_height d)
       | None => ret tt
       end);;
      ref ← gets scrollParentRef;
      match ref with
      | None =>
          emit (CallFindScrollParent (parentElement node));;
          let scrollParentNode := findScrollParent (parentElement node) in
          modify (set_scrollParentRef (Some scrollParentNode));;
          addEventListener scrollParentNode;;
          modify (set_willUnmountFns
                    (fun fns => fns ++ [RemoveScrollListener scrollParentNode]))
      | Some _ => ret tt
      end
  end.

Definition shouldItemRender (index : Z) : Ctl bool :=
  st ← gets state;
  ret ((visibleIndexTop st <=? index)
       && (visibleIndexTop st + visibleLength st >? index)).

Definition getItemDimensions (index : Z) : Ctl Lookup :=
  m ← gets itemDimensions;
  ret (or_null (Map_get m index)).

(** The cleanup of the mount effect: [willUnmountFns.forEach((fn) => fn())]. *)
Definition unmount : Ctl unit :=
  fns ← gets willUnmountFns;
  forEach fns run_teardown.

(** A scroll event fired on [target]: the DOM runs [handleScroll] if it is
    registered there. *)
Definition dispatchScroll (target : EventTarget) (dom : ScrollOffsets) : Ctl unit :=
  ls ← gets scrollListeners;
  if existsb (same_target target) ls then handleScroll dom else ret tt.

(** *** Lifecycles *)

(** What can happen to a mounted component: an item wrapper reports its
    node, the DOM fires a scroll event, or a wrapper queries the
    component. *)
Inductive Action : Type :=
| ItemRender (index : Z) (node : option HTMLElement)
| ScrollEvent (target : EventTarget) (dom : ScrollOffsets)
| AskShouldRender (index : Z)
| AskDimensions (index : Z).

Definition step (a : Action) : Ctl unit :=
  match a with
  | ItemRender index node => onItemRender index node
  | ScrollEvent target dom => dispatchScroll target dom
  | AskShouldRender index => shouldItemRender index;; ret tt
  | AskDimensions index => getItemDimensions index;; ret tt
  end.

Definition run (actions : list Action) : Ctl unit := forEach actions step.

(** The node of the first report that gets past the null check. *)
Fixpoint first_rendered (actions : list Action) : option HTMLElement :=
  match actions with
  | [] => None
  | ItemRender _ (Some node) :: _ => Some node
  | _ :: rest => first_rendered rest
  end.

(** [index] has a report in [actions] whose measurement succeeded. *)
Definition measured_in (index : Z) (actions : list Action) : Prop :=
  exists node d,
    In (ItemRender index (Some node)) actions /\ calcItemDimensions node = Some d.

(** *** Worlds named in the statements below *)

(** The world after the measurement part of [onItemRender]. *)
Definition measured (index : Z) (node : HTMLElement) (w : World) : World :=
  let w1 := set_itemDimensions (fun m => <[index := calcItemDimensions node]> m) w in
  match calcItemDimensions node with
  | Some d =>
      set_trace (fun t => t ++ [CallUpdateHeightAtIndex index (dim_height d)])
        (set_state (updateHeightAtIndex index (dim_height d)) w1)
  | None => w1
  end.

(** The world after the discovery part of [onItemRender], run with an empty
    [scrollParentRef]. *)
Definition discovered (node : HTMLElement) (w : World) : World :=
  let anchor := findScrollParent (parentElement node) in
  set_willUnmountFns (fun fns => fns ++ [RemoveScrollListener anchor])
    (set_trace (fun t => t ++ [CallAddEventListener anchor])
       (set_scrollListeners
          (fun ls => if existsb (same_target anchor) ls then ls else ls ++ [anchor])
          (set_scrollParentRef (Some anchor)
             (set_trace (fun t => t ++ [CallFindScrollParent (parentElement node)])
                w)))).

(** The anchor a lifecycle discovers: the scroll parent of the first node
    reported. *)
Definition anchor_of (actions : list Action) : option EventTarget :=
  (fun node => findScrollParent (parentElement node)) <$> first_rendered actions.

(** The listener registered and the cleanup pushed are those of the cached
    anchor. *)
Definition anchored (w : World) : Prop :=
  scrollListeners w = option_list (scrollParentRef w)
  /\ willUnmountFns w = RemoveScrollListener <$> option_list (scrollParentRef w).

Definition scroll_events (l : list (EventTarget * ScrollOffsets)) : list Action :=
  (fun p => ScrollEvent p.1 p.2) <$> l.

(** An index whose entry in the dimensions map is missing or null. *)
Definition unmeasured (w : World) (index : Z) : Prop :=
  or_null (Map_get (itemDimensions w) index) = null.

End Controller.

Arguments World PI : clear implicits.
Arguments Ctl PI : clear implicits.

(** ** Item wrappers and what a lifecycle leaves behind *)

Definition is_height_call (e : Event) : bool :=
  match e with CallUpdateHeightAtIndex _ _ => true | _ => false end.

Definition is_scroll_call (e : Event) : bool :=
  match e with CallUpdateScrollPosition _ => true | _ => false end.

Definition height_calls (t : list Event) : list Event :=
  List.filter is_height_call t.

Definition scroll_calls (t : list Event) : list Event :=
  List.filter is_scroll_call t.

(** The call of [updateHeightAtIndex] a single action gives rise to: one
    for a report whose node could be measured, none otherwise. *)
Definition height_push (a : Action) : list Event :=
  match a with
  | ItemRender index (Some node) =>
      match calcItemDimensions node with
      | Some d => [CallUpdateHeightAtIndex index (dim_height d)]
      | None => []
      end
  | _ => []
  end.

Definition height_pushes (actions : list Action) : list Event :=
  flat_map height_push actions.

(** The node of the latest report for [index] that carried a node. *)
Fixpoint last_reported (index : Z) (actions : list Action) : option HTMLElement :=
  match actions with
  | [] => None
  | a :: rest =>
      match last_reported index rest with
      | Some node => Some node
      | None =>
          match a with
          | ItemRender j (Some node) => if j =? index then Some node else None
          | _ => None
          end
      end
  end.

(** What [getItemDimensions] answers for a stored measurement. *)
Definition stored (dimensions : option ItemDimensions) : Lookup :=
  match dimensions with
  | Some d => object d
  | None => null
  end.

Definition is_zero (x : number) : bool :=
  match x with S754_zero _ => true | _ => false end.

Section ItemWrappers.

Context {PI : Type} `{PositionIndex PI}.

(** The layout effect of [WindowedListItem]:
    [onItemRender(index, ref.current)], with the [onItemRender] the
    component handed down. *)
Definition WindowedListItem_layoutEffect
    (index : Z) (ref_current : option HTMLElement) : Ctl PI unit :=
  onItemRender index ref_current.

(** The layout effects of a list of wrappers, run one after the other. *)
Definition layoutEffects (items : list (Z * option HTMLElement)) : Ctl PI unit :=
  forEach items (fun it => WindowedListItem_layoutEffect it.1 it.2).

Definition reports (items : list (Z * option HTMLElement)) : list Action :=
  (fun it => ItemRender it.1 it.2) <$> items.

End ItemWrappers.

(** ** Worked inputs *)

Module Fixtures.

(** A position index that records what it is told and keeps its window. It
    stands in for [WindowedListState] on the concrete inputs below, where
    only the calls made by the component matter. *)
Record RecordingIndex : Type :=
  { ri_visibleIndexTop : Z;
    ri_visibleLength : Z;
    ri_scrollPosition : number;
    ri_heights : list (Z * number) }.

#[export] Instance RecordingIndex_PositionIndex : PositionIndex RecordingIndex :=
  { visibleIndexTop := ri_visibleIndexTop;
    visibleLength := ri_visibleLength;
    updateScrollPosition offset st :=
      {| ri_visibleIndexTop := ri_visibleIndexTop st;
         ri_visibleLength := ri_visibleLength st;
         ri_scrollPosition := offset;
         ri_heights := ri_heights st |};
    updateHeightAtIndex index h st :=
      {| ri_visibleIndexTop := ri_visibleIndexTop st;
         ri_visibleLength := ri_visibleLength st;
         ri_scrollPosition := ri_scrollPosition st;
         ri_heights := (index, h) :: ri_heights st |} }.

(** A window of 16 items starting at item 4. *)
Definition index_4_16 : RecordingIndex :=
  {| ri_visibleIndexTop := 4; ri_visibleLength := 16;
     ri_scrollPosition := zero; ri_heights := [] |}.

Definition px (n : Z) : number := of_decimal n 0.

Definition style (overflow marginTop marginBottom : string) : CSSStyleDeclaration :=
  {| overflowY := overflow;
     getPropertyValue := fun property =>
       if String.eqb property "margin-top" then marginTop
       else if String.eqb property "margin-bottom" then marginBottom
       else "" |}.

(** [<body>] / [<div style="overflow-y: auto">] / [<ul>] / [<li>] *)
Definition body : HTMLElement :=
  {| nodeId := 1; parentElement := None;
     getComputedStyle := style "visible" "0px" "0px";
     getClientRects := [ {| top := px 0; height := px 900 |} ] |}.

Definition pane : HTMLElement :=
  {| nodeId := 2; parentElement := Some body;
     getComputedStyle := style "auto" "0px" "0px";
     getClientRects := [ {| top := px 40; height := px 800 |} ] |}.

Definition list_node : HTMLElement :=
  {| nodeId := 3; parentElement := Some pane;
     getComputedStyle := style "visible" "0px" "0px";
     getClientRects := [ {| top := px 40; height := px 5000 |} ] |}.

Definition item : HTMLElement :=
  {| nodeId := 4; parentElement := Some list_node;
     getComputedStyle := style "visible" "10px" "5px";
     getClientRects := [ {| top := px 40; height := px 20 |} ] |}.

(** An item laid out as a table row: margins do not apply to it, so its
    computed [margin-top] is the keyword it was given. *)
Definition table_row : HTMLElement :=
  {| nodeId := 5; parentElement := Some list_node;
     getComputedStyle := style "visible" "auto" "0px";
     getClientRects := [ {| top := px 60; height := px 20 |} ] |}.

(** An item that is attached but has no box ([display: none]). *)
Definition hidden_item : HTMLElement :=
  {| nodeId := 6; parentElement := Some list_node;
     getComputedStyle := style "visible" "0px" "0px";
     getClientRects := [] |}.

(** An item directly under [<body>]: no ancestor scrolls. *)
Definition page_item : HTMLElement :=
  {| nodeId := 7; parentElement := Some body;
     getComputedStyle := style "visible" "0px" "0px";
     getClientRects := [ {| top := px 0; height := px 20 |} ] |}.

Definition offsets (windowY paneTop : Z) : ScrollOffsets :=
  {| scrollY := px windowY;
     scrollTop := fun id => if Pos.eqb id 2 then px paneTop else zero |}.

(** A mounted component with a threshold of 30 pixels. *)
Definition fresh : World RecordingIndex := mount index_4_16 (px 30).

(** The same component after item 2 was reported and measured. *)
Definition item_2_measured : World RecordingIndex :=
  exec (onItemRender 2 (Some item)) fresh.

(** A lifecycle in which item 1 is reported without a box. *)
Definition lifecycle : list Action :=
  [ ItemRender 0 (Some item);
    ScrollEvent (Element pane) (offsets 0 100);
    ItemRender 1 (Some hidden_item);
    ItemRender 1 None;
    AskShouldRender 1 ].

End Fixtures.

Module Scenarios.

Import Fixtures.

(** A component on which nothing was reported yet, while the pane and the
    window scroll. *)
Definition idle : list Action :=
  [ ScrollEvent (Element pane) (offsets 0 100);
    ItemRender 0 None;
    AskDimensions 0;
    ScrollEvent Window (offsets 40 100) ].

(** Item 0 is reported twice, the second time after it lost its box. *)
Definition remeasured : list Action :=
  [ ItemRender 0 (Some item);
    ItemRender 1 (Some table_row);
    ScrollEvent (Element pane) (offsets 0 100);
    ItemRender 0 (Some hidden_item) ].

(** Three wrappers; the second never attached its ref. *)
Definition wrappers : list (Z * option HTMLElement) :=
  [ (0, Some item); (1, None); (2, Some hidden_item) ].

(** A position index whose window is empty. *)
Definition index_empty : RecordingIndex :=
  {| ri_visibleIndexTop := 4; ri_visibleLength := 0;
     ri_scrollPosition := zero; ri_heights := [] |}.

End Scenarios.

(** ** Numbers: facts used below *)

Lemma add_NaN_l (x : number) : add NaN x = NaN.
Proof. reflexivity. Qed.

Lemma add_NaN_r (x : number) : add x NaN = NaN.
Proof. destruct x; reflexivity. Qed.

Lemma isNaN_true (x : number) : isNaN x = true -> x = NaN.
Proof. destruct x; simpl; intros E; try discriminate E; reflexivity. Qed.

(** [Math.max(0, d)] is NaN on NaN, [d] when [0 < d], and [+0] otherwise. *)
Lemma Math_max_zero (d : number) :
  Math_max zero d = if isNaN d then NaN else if ltb zero d then d else zero.
Proof. destruct d as [[]|[]| |[] m e]; reflexivity. Qed.

Example parseFloat_px : parseFloat "10px" = Fixtures.px 10.
Proof. vm_compute. reflexivity. Qed.

Example parseFloat_fraction : parseFloat " -1.5e1px" = SFopp (Fixtures.px 15).
Proof. vm_compute. reflexivity. Qed.

Example parseFloat_keyword : parseFloat "auto" = NaN.
Proof. vm_compute. reflexivity. Qed.

Example parseFloat_empty : parseFloat "" = NaN.
Proof. vm_compute. reflexivity. Qed.

(** ** Scroll-anchor discovery *)

Lemma scrolls_scrollable (node : HTMLElement) :
  scrolls node = true <-> scrollable node.
Proof.
  unfold scrolls, scrollable.
  rewrite orb_true_iff, !String.eqb_eq. reflexivity.
Qed.

Lemma HTMLElement_chain_ind (P : HTMLElement -> Prop) :
  (forall id st rects, P (mkHTMLElement id None st rects)) ->
  (forall id parent st rects,
      P parent -> P (mkHTMLElement id (Some parent) st rects)) ->
  forall node, P node.
Proof.
  intros Hroot Hchild. fix IH 1.
  intros [id [parent|] st rects].
  - apply Hchild, IH.
  - apply Hroot.
Qed.

Lemma findScrollParentFrom_unfold (node : HTMLElement) :
  findScrollParentFrom node =
    if scrolls node then Element node
    else findScrollParent (parentElement node).
Proof.
  destruct node as [id parent st rects]. unfold scrolls. simpl.
  destruct (String.eqb (overflowY st) "auto"); [reflexivity|].
  destruct (String.eqb (overflowY st) "scroll"); reflexivity.
Qed.

(** C6. Starting from the DOM parent of the mounted item, [findScrollParent]
    answers the nearest node of the ancestor chain whose computed
    [overflowY] is [auto] or [scroll] (every node before it in the chain has
    another value); when the chain has no such node, or is empty, it answers
    the window. *)
Theorem findScrollParent_nearest_or_window (node : option HTMLElement) :
  (exists before anchor after,
      ancestor_chain node = before ++ anchor :: after
      /\ Forall (fun a => ~ scrollable a) before
      /\ scrollable anchor
      /\ findScrollParent node = Element anchor)
  \/ (Forall (fun a => ~ scrollable a) (ancestor_chain node)
      /\ findScrollParent node = Window).
Proof.
  destruct node as [n|]; [|right; split; [constructor | reflexivity]].
  simpl. induction n as [id st rects | id parent st rects IH]
    using HTMLElement_chain_ind.
  - rewrite findScrollParentFrom_unfold.
    destruct (scrolls _) eqn:Hs.
    + left. exists [], (mkHTMLElement id None st rects), [].
      repeat split; [constructor | by apply scrolls_scrollable].
    + right. split; [|reflexivity].
      repeat constructor. rewrite <- scrolls_scrollable. congruence.
  - rewrite findScrollParentFrom_unfold.
    destruct (scrolls _) eqn:Hs.
    + left. exists [], (mkHTMLElement id (Some parent) st rects),
        (ancestors_from parent).
      repeat split; [constructor | by apply scrolls_scrollable].
    + assert (Hn : ~ scrollable (mkHTMLElement id (Some parent) st rects))
        by (rewrite <- scrolls_scrollable; congruence).
      simpl findScrollParent. simpl ancestors_from.
      destruct IH as [(before & anchor & after & Hc & Hb & Ha & Hr) | [Hall Hr]].
      * left. exists (mkHTMLElement id (Some parent) st rects :: before),
          anchor, after.
        rewrite Hc. repeat split; [by constructor | exact Ha | exact Hr].
      * right. split; [by constructor | exact Hr].
Qed.

(** ** The callbacks, one call at a time *)

Section ControllerFacts.

Context {PI : Type} `{PositionIndex PI}.

Implicit Types (w : World PI) (index : Z) (node : HTMLElement).

(** Unfolds the monad down to functions on worlds. *)
Ltac ctl_unfold :=
  unfold exec, eval, state_updateScrollPosition, state_updateHeightAtIndex,
    addEventListener, removeEventListener, emit, modify, gets, ret,
    mbind, Ctl_bind, mret, Ctl_ret in *.

Lemma onItemRender_exec w index node :
  exec (onItemRender index (Some node)) w =
    match scrollParentRef w with
    | Some _ => measured index node w
    | None => discovered node (measured index node w)
    end.
Proof.
  unfold onItemRender, measured, discovered. ctl_unfold.
  destruct w as [st T dims obs ref fns ls t]. cbn.
  destruct (obs !! index); cbn;
    destruct (calcItemDimensions node); cbn; destruct ref; reflexivity.
Qed.

Lemma measured_frame w index node :
  scrollParentRef (measured index node w) = scrollParentRef w
  /\ willUnmountFns (measured index node w) = willUnmountFns w
  /\ scrollListeners (measured index node w) = scrollListeners w
  /\ thresholdTop (measured index node w) = thresholdTop w
  /\ discoveries (trace (measured index node w)) = discoveries (trace w)
  /\ listener_attachments (trace (measured index node w))
     = listener_attachments (trace w).
Proof.
  unfold measured, discoveries, listener_attachments.
  destruct (calcItemDimensions node); cbn;
    rewrite ?List.filter_app; cbn; rewrite ?app_nil_r; repeat split.
Qed.

Lemma calcItemDimensions_no_rect node :
  getClientRects node = [] -> calcItemDimensions node = None.
Proof. unfold calcItemDimensions. intros ->. reflexivity. Qed.

Lemma calcItemDimensions_rect node rect rects :
  getClientRects node = rect :: rects ->
  calcItemDimensions node =
    Some {| dim_top := top rect;
            dim_height :=
              add (height rect)
                (add (parseFloat (getPropertyValue (getComputedStyle node) "margin-top"))
                     (parseFloat (getPropertyValue (getComputedStyle node) "margin-bottom"))) |}.
Proof. unfold calcItemDimensions. intros ->. reflexivity. Qed.

Lemma position_index_calls_onItemRender w index node :
  position_index_calls (trace (exec (onItemRender index (Some node)) w)) =
    position_index_calls (trace w)
    ++ match calcItemDimensions node with
       | Some d => [CallUpdateHeightAtIndex index (dim_height d)]
       | None => []
       end.
Proof.
  rewrite onItemRender_exec. unfold position_index_calls, discovered, measured.
  destruct (scrollParentRef w), (calcItemDimensions node); cbn;
    rewrite ?List.filter_app; cbn; rewrite ?app_nil_r; reflexivity.
Qed.

Lemma state_onItemRender w index node :
  state (exec (onItemRender index (Some node)) w) =
    match calcItemDimensions node with
    | Some d => updateHeightAtIndex index (dim_height d) (state w)
    | None => state w
    end.
Proof.
  rewrite onItemRender_exec. unfold discovered, measured.
  destruct (scrollParentRef w), (calcItemDimensions node); reflexivity.
Qed.

Lemma itemDimensions_onItemRender w index node :
  itemDimensions (exec (onItemRender index (Some node)) w) =
    <[index := calcItemDimensions node]> (itemDimensions w).
Proof.
  rewrite onItemRender_exec. unfold discovered, measured.
  destruct (scrollParentRef w), (calcItemDimensions node); reflexivity.
Qed.

Lemma getItemDimensions_eval w index :
  eval (getItemDimensions index) w = or_null (Map_get (itemDimensions w) index).
Proof. reflexivity. Qed.

Lemma getItemDimensions_exec w index :
  exec (getItemDimensions index) w = w.
Proof. reflexivity. Qed.

(** C1. [shouldItemRender(i)] is true exactly when [i] lies in the current
    window [visibleIndexTop <= i < visibleIndexTop + visibleLength]; with the
    window inside [0, N) it is false for every index below 0 or from [N] on;
    and the call leaves the component and the position index as they were. *)
Theorem shouldItemRender_window (N : Z) w index :
  window_in_range N (state w) ->
  (eval (shouldItemRender index) w = true
   <-> visibleIndexTop (state w) <= index
       < visibleIndexTop (state w) + visibleLength (state w))
  /\ (index < 0 \/ N <= index -> eval (shouldItemRender index) w = false)
  /\ exec (shouldItemRender index) w = w.
Proof.
  intros [Hlo Hhi]. unfold shouldItemRender. ctl_unfold. cbn.
  split; [|split; [|reflexivity]].
  - rewrite andb_true_iff. lia.
  - intros Hout. apply andb_false_iff. destruct Hout; [left | right]; lia.
Qed.

Lemma handleScroll_forwards_clamped_offset_aux w (dom : ScrollOffsets) :
  exists offset,
    exec (handleScroll dom) w =
      set_trace (fun t => t ++ [CallUpdateScrollPosition offset])
        (set_state (updateScrollPosition offset) w).
Proof.
  unfold handleScroll, getScrollTop. ctl_unfold.
  destruct w as [st T dims obs ref fns ls t]. cbn.
  destruct ref as [[|anchor]|]; eexists; reflexivity.
Qed.

(** C3. With [S] the raw offset [getScrollTop] reads from the anchor and [T]
    the configured [thresholdTop], [handleScroll] makes one call,
    [updateScrollPosition(Math.max(0, S - T))], and changes nothing else;
    that argument is [S - T] when it is positive and [+0] when it is not
    (and NaN only if [S - T] is). *)
Theorem handleScroll_forwards_clamped_offset w (dom : ScrollOffsets) :
  let S := eval (getScrollTop dom) w in
  let T := thresholdTop w in
  let offset := Math_max zero (sub S T) in
  S = match scrollParentRef w with
      | None => zero
      | Some Window => scrollY dom
      | Some (Element anchor) => scrollTop dom (nodeId anchor)
      end
  /\ exec (handleScroll dom) w =
       set_trace (fun t => t ++ [CallUpdateScrollPosition offset])
         (set_state (updateScrollPosition offset) w)
  /\ offset = if isNaN (sub S T) then NaN
              else if ltb zero (sub S T) then sub S T else zero.
Proof.
  cbn zeta. split; [|split].
  - unfold getScrollTop. ctl_unfold. cbn.
    destruct (scrollParentRef w) as [[|anchor]|]; reflexivity.
  - unfold handleScroll, getScrollTop. ctl_unfold.
    destruct w as [st T dims obs ref fns ls t]. cbn.
    destruct ref as [[|anchor]|]; reflexivity.
  - apply Math_max_zero.
Qed.

(** C4. [onItemRender(i, null)] returns at once: the whole state of the
    component is the one before the call, so the dimensions stored for [i]
    are kept, and no call is made to the position index or to the DOM. *)
Theorem onItemRender_null_is_noop w index :
  onItemRender index None w = (tt, w)
  /\ Map_get (itemDimensions (exec (onItemRender index None) w)) index
     = Map_get (itemDimensions w) index
  /\ state (exec (onItemRender index None) w) = state w
  /\ trace (exec (onItemRender index None) w) = trace w.
Proof. repeat split. Qed.

(** C5. Measurement looks at the first client rectangle of the node. With no
    rectangle it yields no dimensions, the position index is not called and
    keeps its state. Otherwise it yields the rectangle's [top] and, as
    height, the rectangle's height plus the parsed [margin-top] and
    [margin-bottom]; that height, and nothing else, is passed to
    [updateHeightAtIndex] for the reported index, and the dimensions are
    stored under it. *)
Theorem onItemRender_measures_first_rect w index node :
  let w' := exec (onItemRender index (Some node)) w in
  match getClientRects node with
  | [] =>
      calcItemDimensions node = None
      /\ state w' = state w
      /\ position_index_calls (trace w') = position_index_calls (trace w)
  | rect :: _ =>
      let h :=
        add (height rect)
          (add (parseFloat (getPropertyValue (getComputedStyle node) "margin-top"))
               (parseFloat (getPropertyValue (getComputedStyle node) "margin-bottom"))) in
      calcItemDimensions node = Some {| dim_top := top rect; dim_height := h |}
      /\ state w' = updateHeightAtIndex index h (state w)
      /\ position_index_calls (trace w')
         = position_index_calls (trace w) ++ [CallUpdateHeightAtIndex index h]
      /\ Map_get (itemDimensions w') index
         = object {| dim_top := top rect; dim_height := h |}
  end.
Proof.
  cbn zeta.
  rewrite state_onItemRender, position_index_calls_onItemRender,
    itemDimensions_onItemRender.
  destruct (getClientRects node) as [|rect rects] eqn:Hrects.
  - rewrite (calcItemDimensions_no_rect _ Hrects), app_nil_r. repeat split.
  - rewrite (calcItemDimensions_rect _ _ _ Hrects). cbn.
    repeat split. unfold Map_get. by rewrite lookup_insert_eq.
Qed.

(** C2, as the code has it. When the node has a client rectangle and its
    computed [margin-top] or [margin-bottom] does not parse ([parseFloat]
    gives NaN), no default is applied: the measured height is NaN, and NaN
    is the height stored and passed to [updateHeightAtIndex]. *)
Theorem unparsable_margin_gives_NaN_height w index node rect rects :
  getClientRects node = rect :: rects ->
  isNaN (parseFloat (getPropertyValue (getComputedStyle node) "margin-top")) = true
  \/ isNaN (parseFloat (getPropertyValue (getComputedStyle node) "margin-bottom")) = true ->
  let w' := exec (onItemRender index (Some node)) w in
  calcItemDimensions node = Some {| dim_top := top rect; dim_height := NaN |}
  /\ state w' = updateHeightAtIndex index NaN (state w)
  /\ position_index_calls (trace w')
     = position_index_calls (trace w) ++ [CallUpdateHeightAtIndex index NaN]
  /\ Map_get (itemDimensions w') index
     = object {| dim_top := top rect; dim_height := NaN |}.
Proof.
  intros Hrects Hnan. cbn zeta.
  assert (Hcalc : calcItemDimensions node
                  = Some {| dim_top := top rect; dim_height := NaN |}).
  { rewrite (calcItemDimensions_rect _ _ _ Hrects).
    destruct Hnan as [E|E]; apply isNaN_true in E; rewrite E;
      by rewrite ?add_NaN_l, ?add_NaN_r. }
  rewrite state_onItemRender, position_index_calls_onItemRender,
    itemDimensions_onItemRender, Hcalc. cbn.
  repeat split. unfold Map_get. by rewrite lookup_insert_eq.
Qed.

(** C10. When dimensions are stored for [i] and [onItemRender(i, node)] is
    called with a node that has no client rectangle, the entry of [i]
    becomes null and [getItemDimensions(i)] answers null from then on; the
    entries of the other indices are kept, the position index is not called
    and keeps its state. *)
Theorem failed_remeasure_overwrites_with_null w index node (d : ItemDimensions) :
  Map_get (itemDimensions w) index = object d ->
  getClientRects node = [] ->
  let w' := exec (onItemRender index (Some node)) w in
  Map_get (itemDimensions w') index = null
  /\ eval (getItemDimensions index) w' = null
  /\ (forall j, j <> index ->
        Map_get (itemDimensions w') j = Map_get (itemDimensions w) j)
  /\ state w' = state w
  /\ position_index_calls (trace w') = position_index_calls (trace w).
Proof.
  intros _ Hrects. cbn zeta.
  rewrite getItemDimensions_eval, state_onItemRender, position_index_calls_onItemRender,
    itemDimensions_onItemRender, (calcItemDimensions_no_rect _ Hrects), app_nil_r.
  unfold Map_get. rewrite lookup_insert_eq. repeat split.
  intros j Hj. by rewrite lookup_insert_ne.
Qed.

(** ** Whole lifecycles *)

Lemma run_cons (a : Action) (actions : list Action) w :
  exec (run (a :: actions)) w = exec (run actions) (exec (step a) w).
Proof.
  unfold run. cbn. ctl_unfold. destruct (step a w) as [[] w1]. reflexivity.
Qed.

Lemma dispatchScroll_exec target (dom : ScrollOffsets) w :
  exec (dispatchScroll target dom) w =
    if existsb (same_target target) (scrollListeners w)
    then exec (handleScroll dom) w else w.
Proof.
  unfold dispatchScroll. ctl_unfold. cbn.
  destruct (existsb _ _); reflexivity.
Qed.

Lemma handleScroll_frame (dom : ScrollOffsets) w :
  let w' := exec (handleScroll dom) w in
  scrollParentRef w' = scrollParentRef w
  /\ willUnmountFns w' = willUnmountFns w
  /\ scrollListeners w' = scrollListeners w
  /\ itemDimensions w' = itemDimensions w
  /\ discoveries (trace w') = discoveries (trace w)
  /\ listener_attachments (trace w') = listener_attachments (trace w).
Proof.
  cbn zeta.
  destruct (handleScroll_forwards_clamped_offset_aux w dom) as [x ->].
  unfold discoveries, listener_attachments. cbn.
  rewrite !List.filter_app, !app_nil_r. repeat split.
Qed.

(** Scroll events and queries leave the cells of the component alone. *)
Lemma step_frame (a : Action) w :
  (forall index node, a <> ItemRender index (Some node)) ->
  let w' := exec (step a) w in
  scrollParentRef w' = scrollParentRef w
  /\ willUnmountFns w' = willUnmountFns w
  /\ scrollListeners w' = scrollListeners w
  /\ itemDimensions w' = itemDimensions w
  /\ discoveries (trace w') = discoveries (trace w)
  /\ listener_attachments (trace w') = listener_attachments (trace w).
Proof.
  intros Hnot. destruct a as [index [node|] | target dom | index | index]; cbn zeta.
  - by destruct (Hnot index node).
  - repeat split.
  - cbn [step]. rewrite dispatchScroll_exec.
    destruct (existsb _ _); [apply handleScroll_frame | repeat split].
  - repeat split.
  - repeat split.
Qed.

Lemma discovered_counts node w :
  scrollParentRef (discovered node w) = Some (findScrollParent (parentElement node))
  /\ discoveries (trace (discovered node w)) = S (discoveries (trace w))
  /\ listener_attachments (trace (discovered node w))
     = S (listener_attachments (trace w)).
Proof.
  unfold discovered, discoveries, listener_attachments. cbn.
  rewrite !List.filter_app, !length_app. cbn. repeat split; lia.
Qed.

Lemma run_discovery (actions : list Action) : forall w,
  let w' := exec (run actions) w in
  let fresh := match scrollParentRef w, first_rendered actions with
               | None, Some _ => 1%nat
               | _, _ => 0%nat
               end in
  scrollParentRef w' = match scrollParentRef w with
                       | Some anchor => Some anchor
                       | None => anchor_of actions
                       end
  /\ discoveries (trace w') = (discoveries (trace w) + fresh)%nat
  /\ listener_attachments (trace w') = (listener_attachments (trace w) + fresh)%nat.
Proof.
  induction actions as [|a actions IH]; intros w; cbn zeta.
  - cbn. destruct (scrollParentRef w); repeat split; lia.
  - rewrite run_cons.
    destruct (IH (exec (step a) w)) as (IHref & IHd & IHl).
    rewrite IHref, IHd, IHl. clear IH IHref IHd IHl.
    assert (Hcase : (exists index node, a = ItemRender index (Some node))
                    \/ forall index node, a <> ItemRender index (Some node)).
    { destruct a as [index [node|] | | | ]; [left; eauto | right ..]; congruence. }
    destruct Hcase as [(index & node & ->) | Hnot].
    + cbn [step first_rendered anchor_of fmap option_fmap option_map].
      rewrite onItemRender_exec.
      destruct (measured_frame w index node) as (Mref & _ & _ & _ & Md & Ml).
      destruct (scrollParentRef w) as [anchor|] eqn:Href.
      * rewrite Mref, Md, Ml. destruct (first_rendered actions); repeat split.
      * destruct (discovered_counts node (measured index node w)) as (Dref & Dd & Dl).
        rewrite Dref, Dd, Dl, Md, Ml.
        destruct (first_rendered actions); repeat split; lia.
    + destruct (step_frame a w Hnot) as (Sref & _ & _ & _ & Sd & Sl).
      rewrite Sref, Sd, Sl.
      assert (Hfirst : first_rendered (a :: actions) = first_rendered actions).
      { destruct a as [index [node|] | | | ]; try reflexivity.
        by destruct (Hnot index node). }
      unfold anchor_of. rewrite Hfirst. repeat split.
Qed.

(** C7. Over any sequence of item reports, scroll events and queries from
    mount: discovery runs, and the scroll listener is attached, once if some
    report carried a node and never otherwise; the cached anchor is the
    scroll parent found from the first node reported; and once an anchor is
    cached, a further [onItemRender] keeps it, runs no discovery, attaches no
    listener and registers no cleanup. *)
Theorem discovery_runs_once_and_is_cached (st : PI) (T : number)
    (actions : list Action) :
  let w := exec (run actions) (mount st T) in
  let once := match first_rendered actions with Some _ => 1%nat | None => 0%nat end in
  scrollParentRef w = anchor_of actions
  /\ discoveries (trace w) = once
  /\ listener_attachments (trace w) = once
  /\ (forall index (reported : option HTMLElement) anchor w0,
        scrollParentRef w0 = Some anchor ->
        let w1 := exec (onItemRender index reported) w0 in
        scrollParentRef w1 = Some anchor
        /\ scrollListeners w1 = scrollListeners w0
        /\ willUnmountFns w1 = willUnmountFns w0
        /\ discoveries (trace w1) = discoveries (trace w0)
        /\ listener_attachments (trace w1) = listener_attachments (trace w0)).
Proof.
  cbn zeta. destruct (run_discovery actions (mount st T)) as (Href & Hd & Hl).
  cbn in Href, Hd, Hl. rewrite Href, Hd, Hl.
  split; [reflexivity|]. split; [by destruct (first_rendered actions)|].
  split; [by destruct (first_rendered actions)|].
  intros index [node|] anchor w0 Hcached; [|by repeat split].
  rewrite onItemRender_exec, Hcached.
  destruct (measured_frame w0 index node) as (Mref & Mf & Ms & _ & Md & Ml).
  repeat split; congruence.
Qed.

Lemma same_target_refl (t : EventTarget) : same_target t t = true.
Proof. destruct t; [reflexivity | apply Pos.eqb_refl]. Qed.

Lemma mount_anchored (st : PI) (T : number) : anchored (mount st T).
Proof. split; reflexivity. Qed.

Lemma step_anchored (a : Action) w : anchored w -> anchored (exec (step a) w).
Proof.
  intros [Hls Hfns].
  assert (Hcase : (exists index node, a = ItemRender index (Some node))
                  \/ forall index node, a <> ItemRender index (Some node)).
  { destruct a as [index [node|] | | | ]; [left; eauto | right ..]; congruence. }
  destruct Hcase as [(index & node & ->) | Hnot].
  - cbn [step]. rewrite onItemRender_exec.
    destruct (measured_frame w index node) as (Mref & Mf & Ms & _).
    destruct (scrollParentRef w) as [anchor|] eqn:Href.
    + split; congruence.
    + unfold anchored, discovered. cbn. rewrite Mf, Ms, Hls, Hfns. cbn.
      split; reflexivity.
  - destruct (step_frame a w Hnot) as (Sref & Sf & Ss & _).
    split; congruence.
Qed.

Lemma run_anchored (actions : list Action) : forall w,
  anchored w -> anchored (exec (run actions) w).
Proof.
  induction actions as [|a actions IH]; intros w Hw; [exact Hw|].
  rewrite run_cons. by apply IH, step_anchored.
Qed.

(** [forEach] calls the cleanups front to back, whatever was pushed. *)
Lemma unmount_trace w :
  trace (exec unmount w) = trace w ++ (teardown_event <$> willUnmountFns w)
  /\ state (exec unmount w) = state w.
Proof.
  unfold unmount. ctl_unfold. cbn.
  generalize (willUnmountFns w) as fns. generalize w as w0.
  intros w0 fns. revert w0.
  induction fns as [|[target] fns IH]; intros w0.
  - cbn. by rewrite app_nil_r.
  - cbn. ctl_unfold. cbn.
    destruct (IH (set_trace (fun t => t ++ [CallRemoveEventListener target])
                    (set_scrollListeners
                       (List.filter (fun t => negb (same_target target t))) w0)))
      as [IHt IHs].
    rewrite IHt, IHs. cbn. by rewrite <- app_assoc.
Qed.

Lemma unmount_exec w :
  anchored w ->
  exec unmount w =
    match scrollParentRef w with
    | None => w
    | Some anchor =>
        set_trace (fun t => t ++ [CallRemoveEventListener anchor])
          (set_scrollListeners (fun _ => []) w)
    end.
Proof.
  intros [Hls Hfns]. unfold unmount. ctl_unfold.
  destruct w as [st T dims obs ref fns ls t]. cbn in *. subst ls fns.
  destruct ref as [anchor|]; cbn; [|reflexivity].
  ctl_unfold. unfold set_trace, set_scrollListeners. cbn.
  by rewrite same_target_refl.
Qed.

Lemma scroll_events_without_listener (l : list (EventTarget * ScrollOffsets)) w :
  scrollListeners w = [] -> exec (run (scroll_events l)) w = w.
Proof.
  intros Hls. induction l as [|[target dom] l IH]; [reflexivity|].
  unfold scroll_events. rewrite fmap_cons, run_cons. cbn [step fst snd].
  rewrite dispatchScroll_exec, Hls. exact IH.
Qed.

(** C8. At unmount after any lifecycle, the registered cleanups run once
    each, in the order of [willUnmountFns] (the order in which they were
    pushed), and nothing else is called; what was registered is the removal
    of the scroll listener from the cached anchor; afterwards
    [handleScroll] is registered nowhere, the position index has the state
    it had before the unmount, and no sequence of scroll events, on any
    target, changes the position index or anything else. *)
Theorem unmount_runs_cleanups_and_detaches (st : PI) (T : number)
    (actions : list Action) (later : list (EventTarget * ScrollOffsets)) :
  let w := exec (run actions) (mount st T) in
  let w' := exec unmount w in
  trace w' = trace w ++ (teardown_event <$> willUnmountFns w)
  /\ willUnmountFns w = RemoveScrollListener <$> option_list (anchor_of actions)
  /\ scrollListeners w = option_list (anchor_of actions)
  /\ scrollListeners w' = []
  /\ state w' = state w
  /\ exec (run (scroll_events later)) w' = w'.
Proof.
  cbn zeta.
  pose proof (run_anchored actions _ (mount_anchored st T)) as Hanch.
  destruct (run_discovery actions (mount st T)) as (Href & _).
  cbn in Href.
  set (w := exec (run actions) (mount st T)) in *.
  assert (Hls' : scrollListeners (exec unmount w) = []).
  { rewrite (unmount_exec _ Hanch). destruct Hanch as [Hls _].
    destruct (scrollParentRef w); [reflexivity | exact Hls]. }
  destruct Hanch as [Hls Hfns].
  split; [|split; [|split; [|split; [|split]]]].
  - apply unmount_trace.
  - by rewrite Hfns, Href.
  - by rewrite Hls, Href.
  - exact Hls'.
  - apply unmount_trace.
  - by apply scroll_events_without_listener.
Qed.

Lemma step_unmeasured (a : Action) w index :
  (forall node d, a = ItemRender index (Some node) ->
                  calcItemDimensions node <> Some d) ->
  unmeasured w index -> unmeasured (exec (step a) w) index.
Proof.
  intros Hfail Hw.
  assert (Hcase : (exists j node, a = ItemRender j (Some node))
                  \/ forall j node, a <> ItemRender j (Some node)).
  { destruct a as [j [node|] | | | ]; [left; eauto | right ..]; congruence. }
  destruct Hcase as [(j & node & ->) | Hnot].
  - unfold unmeasured, Map_get in *. cbn [step].
    rewrite itemDimensions_onItemRender.
    destruct (decide (j = index)) as [->|Hne].
    + rewrite lookup_insert_eq.
      destruct (calcItemDimensions node) as [d|] eqn:Hd; [|reflexivity].
      by destruct (Hfail node d).
    + by rewrite lookup_insert_ne.
  - destruct (step_frame a w Hnot) as (_ & _ & _ & Sd & _).
    unfold unmeasured. by rewrite Sd.
Qed.

Lemma run_unmeasured (actions : list Action) index : forall w,
  ~ measured_in index actions ->
  unmeasured w index -> unmeasured (exec (run actions) w) index.
Proof.
  induction actions as [|a actions IH]; intros w Hnot Hw; [exact Hw|].
  rewrite run_cons. apply IH.
  - intros (node & d & Hin & Hd). apply Hnot. exists node, d.
    split; [by right | exact Hd].
  - apply step_unmeasured; [|exact Hw].
    intros node d -> Hd. apply Hnot. exists node, d.
    split; [by left | exact Hd].
Qed.

(** C9, as the code has it. [getItemDimensions(i)] never answers
    [undefined] and changes nothing, for any integer [i] and any state of
    the component; and after a lifecycle in which no report for [i] was
    measured successfully, whether [i] is inside the range of the list or
    not, it answers null. *)
Theorem getItemDimensions_null_when_unmeasured (st : PI) (T : number)
    (actions : list Action) index :
  ~ measured_in index actions ->
  let w := exec (run actions) (mount st T) in
  eval (getItemDimensions index) w = null
  /\ exec (getItemDimensions index) w = w
  /\ (forall w0 j, eval (getItemDimensions j) w0 <> undefined
                   /\ exec (getItemDimensions j) w0 = w0).
Proof.
  intros Hnot. cbn zeta. split; [|split; [reflexivity|]].
  - rewrite getItemDimensions_eval.
    by apply (run_unmeasured actions index (mount st T) Hnot).
  - intros w0 j. split; [|reflexivity].
    rewrite getItemDimensions_eval.
    by destruct (Map_get (itemDimensions w0) j).
Qed.

End ControllerFacts.

(** ** The theorems at the worked inputs *)

Section Worked.

Import Fixtures.

Example handleScroll_below_threshold :
  trace (exec (handleScroll (offsets 0 10)) item_2_measured)
  = trace item_2_measured ++ [CallUpdateScrollPosition zero].
Proof. vm_compute. reflexivity. Qed.

Example handleScroll_above_threshold :
  trace (exec (handleScroll (offsets 0 100)) item_2_measured)
  = trace item_2_measured ++ [CallUpdateScrollPosition (px 70)].
Proof. vm_compute. reflexivity. Qed.

(** With no scrolling ancestor the anchor is the window, and scroll events
    of the window reach the position index. *)
Example window_anchor_drives_the_index :
  let w := exec (onItemRender 0 (Some page_item)) fresh in
  scrollParentRef w = Some Window
  /\ position_index_calls (trace (exec (dispatchScroll Window (offsets 50 0)) w))
     = [CallUpdateHeightAtIndex 0 (px 20); CallUpdateScrollPosition (px 20)].
Proof. vm_compute. split; reflexivity. Qed.

(** The first report that carries a node runs the discovery even when the
    node has no box to measure. *)
Example unmeasurable_first_report_discovers :
  let w := exec (onItemRender 0 (Some hidden_item)) fresh in
  scrollParentRef w = Some (Element pane)
  /\ trace w = [CallFindScrollParent (Some list_node);
                CallAddEventListener (Element pane)].
Proof. vm_compute. split; reflexivity. Qed.

Lemma shouldItemRender_window_witness :
  window_in_range 1000 (state fresh)
  /\ ((eval (shouldItemRender 7) fresh = true
       <-> visibleIndexTop (state fresh) <= 7
           < visibleIndexTop (state fresh) + visibleLength (state fresh))
      /\ (7 < 0 \/ 1000 <= 7 -> eval (shouldItemRender 7) fresh = false)
      /\ exec (shouldItemRender 7) fresh = fresh).
Proof.
  split.
  - unfold window_in_range. simpl. lia.
  - apply (shouldItemRender_window 1000 fresh 7).
    unfold window_in_range. simpl. lia.
Defined.

(** A table row with [margin-top: auto] and a box of 20 pixels: the code
    measures NaN and passes NaN to the position index, where the margin
    defaulted to 0 would give 20. *)
Lemma unparsable_margin_counterexample :
  isNaN (parseFloat (getPropertyValue (getComputedStyle table_row) "margin-top"))
  = true
  /\ calcItemDimensions table_row
     = Some {| dim_top := px 60; dim_height := NaN |}
  /\ calcItemDimensions_defaulting table_row
     = Some {| dim_top := px 60; dim_height := px 20 |}
  /\ position_index_calls (trace (exec (onItemRender 0 (Some table_row)) fresh))
     = [CallUpdateHeightAtIndex 0 NaN]
  /\ ~ (forall node d, calcItemDimensions node = Some d ->
                       isNaN (dim_height d) = false).
Proof.
  assert (Hcode : calcItemDimensions table_row
                  = Some {| dim_top := px 60; dim_height := NaN |})
    by (vm_compute; reflexivity).
  split; [vm_compute; reflexivity|]. split; [exact Hcode|].
  split; [vm_compute; reflexivity|]. split; [vm_compute; reflexivity|].
  intros Hnever. specialize (Hnever _ _ Hcode). discriminate Hnever.
Qed.

Lemma unparsable_margin_gives_NaN_height_witness :
  getClientRects table_row = [ {| top := px 60; height := px 20 |} ]
  /\ (isNaN (parseFloat (getPropertyValue (getComputedStyle table_row) "margin-top"))
      = true
      \/ isNaN (parseFloat (getPropertyValue (getComputedStyle table_row) "margin-bottom"))
         = true)
  /\ (let w' := exec (onItemRender 0 (Some table_row)) fresh in
      calcItemDimensions table_row
      = Some {| dim_top := top {| top := px 60; height := px 20 |};
                dim_height := NaN |}
      /\ state w' = updateHeightAtIndex 0 NaN (state fresh)
      /\ position_index_calls (trace w')
         = position_index_calls (trace fresh) ++ [CallUpdateHeightAtIndex 0 NaN]
      /\ Map_get (itemDimensions w') 0
         = object {| dim_top := top {| top := px 60; height := px 20 |};
                     dim_height := NaN |}).
Proof.
  split; [reflexivity|]. split; [left; vm_compute; reflexivity|].
  apply (unparsable_margin_gives_NaN_height fresh 0 table_row
           {| top := px 60; height := px 20 |} []).
  - reflexivity.
  - left. vm_compute. reflexivity.
Defined.

(** An index below 0, and one beyond a list of 20 items, reported with a
    measurable node: [getItemDimensions] answers the stored dimensions, not
    null. *)
Lemma out_of_range_index_counterexample :
  window_in_range 20 (state fresh)
  /\ -1 < 0
  /\ eval (getItemDimensions (-1)) (exec (onItemRender (-1) (Some item)) fresh)
     = object {| dim_top := px 40; dim_height := px 35 |}
  /\ 20 <= 25
  /\ eval (getItemDimensions 25) (exec (onItemRender 25 (Some item)) fresh)
     = object {| dim_top := px 40; dim_height := px 35 |}
  /\ object {| dim_top := px 40; dim_height := px 35 |} <> null.
Proof.
  split; [unfold window_in_range; simpl; lia|].
  split; [lia|]. split; [vm_compute; reflexivity|].
  split; [lia|]. split; [vm_compute; reflexivity|]. discriminate.
Qed.

Lemma getItemDimensions_null_when_unmeasured_witness :
  ~ measured_in 1 lifecycle
  /\ (let w := exec (run lifecycle) fresh in
      eval (getItemDimensions 1) w = null
      /\ exec (getItemDimensions 1) w = w
      /\ (forall (w0 : World RecordingIndex) j,
            eval (getItemDimensions j) w0 <> undefined
            /\ exec (getItemDimensions j) w0 = w0)).
Proof.
  assert (Hnot : ~ measured_in 1 lifecycle).
  { intros (node & d & Hin & Hd). simpl in Hin.
    destruct Hin as [E|[E|[E|[E|[E|[]]]]]]; try discriminate E.
    injection E as <-. vm_compute in Hd. discriminate Hd. }
  split; [exact Hnot|].
  apply (getItemDimensions_null_when_unmeasured index_4_16 (px 30) lifecycle 1 Hnot).
Defined.

Lemma failed_remeasure_overwrites_with_null_witness :
  Map_get (itemDimensions item_2_measured) 2
  = object {| dim_top := px 40; dim_height := px 35 |}
  /\ getClientRects hidden_item = []
  /\ (let w' := exec (onItemRender 2 (Some hidden_item)) item_2_measured in
      Map_get (itemDimensions w') 2 = null
      /\ eval (getItemDimensions 2) w' = null
      /\ (forall j, j <> 2 ->
            Map_get (itemDimensions w') j
            = Map_get (itemDimensions item_2_measured) j)
      /\ state w' = state item_2_measured
      /\ position_index_calls (trace w')
         = position_index_calls (trace item_2_measured)).
Proof.
  split; [vm_compute; reflexivity|]. split; [reflexivity|].
  apply (failed_remeasure_overwrites_with_null item_2_measured 2 hidden_item
           {| dim_top := px 40; dim_height := px 35 |}).
  - vm_compute. reflexivity.
  - reflexivity.
Defined.

End Worked.

(** ** Further properties of the discovery and of the measurement *)

Lemma findScrollParentFrom_fixed (node : HTMLElement) :
  forall anchor,
    findScrollParentFrom node = Element anchor ->
    scrollable anchor /\ In anchor (ancestors_from node)
    /\ findScrollParentFrom anchor = Element anchor.
Proof.
  induction node as [id st rects | id parent st rects IH]
    using HTMLElement_chain_ind; intros anchor;
    rewrite findScrollParentFrom_unfold;
    destruct (scrolls _) eqn:Hs; simpl findScrollParent.
  - intros [= <-]. split; [by apply scrolls_scrollable|].
    split; [by left|]. by rewrite findScrollParentFrom_unfold, Hs.
  - discriminate.
  - intros [= <-]. split; [by apply scrolls_scrollable|].
    split; [by left|]. by rewrite findScrollParentFrom_unfold, Hs.
  - intros Hfound. destruct (IH anchor Hfound) as (Ha & Hin & Hfix).
    split; [exact Ha|]. split; [by right | exact Hfix].
Qed.

Lemma findScrollParentFrom_window (node : HTMLElement) :
  findScrollParentFrom node = Window ->
  Forall (fun a => findScrollParentFrom a = Window /\ ~ scrollable a)
    (ancestors_from node).
Proof.
  induction node as [id st rects | id parent st rects IH]
    using HTMLElement_chain_ind; intros Hw;
    pose proof Hw as Hw'; rewrite findScrollParentFrom_unfold in Hw';
    destruct (scrolls _) eqn:Hs; try discriminate Hw';
    simpl in Hw'; simpl ancestors_from.
  - repeat constructor; [exact Hw|].
    rewrite <- scrolls_scrollable. congruence.
  - constructor; [|by apply IH]. split; [exact Hw|].
    rewrite <- scrolls_scrollable. congruence.
Qed.

(** X1. An anchor that [findScrollParent] finds is a node of the chain it
    was started on, has a scrolling [overflowY], and is its own scroll
    parent: starting the discovery again from it finds it again. *)
Theorem findScrollParent_anchor_is_fixed (node : option HTMLElement)
    (anchor : HTMLElement) :
  findScrollParent node = Element anchor ->
  scrollable anchor
  /\ In anchor (ancestor_chain node)
  /\ findScrollParent (Some anchor) = Element anchor.
Proof.
  destruct node as [n|]; [|discriminate].
  apply findScrollParentFrom_fixed.
Qed.

(** X2. When [findScrollParent] falls back to the window, every node of the
    chain falls back to the window as well, and none of them scrolls. *)
Theorem findScrollParent_window_along_chain (node : option HTMLElement) :
  findScrollParent node = Window ->
  Forall (fun a => findScrollParent (Some a) = Window /\ ~ scrollable a)
    (ancestor_chain node).
Proof.
  destruct node as [n|]; [|constructor].
  apply findScrollParentFrom_window.
Qed.

Lemma Math_max_zero_not_negative (d : number) :
  ltb (Math_max zero d) zero = false /\ Math_max zero d <> S754_zero true.
Proof. destruct d as [[]|[]| |[] m e]; split; (reflexivity || discriminate). Qed.

Lemma add_zero_r (h z : number) :
  is_zero z = true -> is_zero h = false -> add h z = h.
Proof.
  destruct z; try discriminate. intros _.
  destruct h; try discriminate; reflexivity.
Qed.

Lemma add_zero_zero (x y : number) :
  is_zero x = true -> is_zero y = true -> is_zero (add x y) = true.
Proof.
  destruct x as [[]| | |]; try discriminate;
    destruct y as [[]| | |]; try discriminate; reflexivity.
Qed.

Section MoreControllerFacts.

Context {PI : Type} `{PositionIndex PI}.

Implicit Types (w : World PI) (index : Z) (node : HTMLElement).

Ltac ctl_unfold :=
  unfold exec, eval, state_updateScrollPosition, state_updateHeightAtIndex,
    addEventListener, removeEventListener, emit, modify, gets, ret,
    mbind, Ctl_bind, mret, Ctl_ret in *.

(** X12. For a node whose two margins parse to zero and whose first client
    rectangle has a height other than zero, the measured height is the
    height of the rectangle, and [top] is the rectangle's [top]. *)
Theorem calcItemDimensions_without_margins node (rect : DOMRect)
    (rects : list DOMRect) :
  getClientRects node = rect :: rects ->
  is_zero (parseFloat (getPropertyValue (getComputedStyle node) "margin-top")) = true ->
  is_zero (parseFloat (getPropertyValue (getComputedStyle node) "margin-bottom")) = true ->
  is_zero (height rect) = false ->
  calcItemDimensions node
  = Some {| dim_top := top rect; dim_height := height rect |}.
Proof.
  intros Hrects Hmt Hmb Hh.
  rewrite (calcItemDimensions_rect _ _ _ Hrects).
  by rewrite (add_zero_r _ _ (add_zero_zero _ _ Hmt Hmb) Hh).
Qed.

(** X11. Whatever the anchor's offset and the threshold are, the offset
    [handleScroll] passes to [updateScrollPosition] is not below zero and is
    not the negative zero. *)
Theorem handleScroll_offset_not_negative w (dom : ScrollOffsets) :
  exists offset,
    trace (exec (handleScroll dom) w)
    = trace w ++ [CallUpdateScrollPosition offset]
    /\ state (exec (handleScroll dom) w) = updateScrollPosition offset (state w)
    /\ ltb offset zero = false
    /\ offset <> S754_zero true.
Proof.
  exists (Math_max zero (sub (eval (getScrollTop dom) w) (thresholdTop w))).
  split; [|split; [|apply Math_max_zero_not_negative]].
  - unfold handleScroll, getScrollTop. ctl_unfold.
    destruct w as [st T dims obs ref fns ls t]. cbn.
    destruct ref as [[|anchor]|]; reflexivity.
  - unfold handleScroll, getScrollTop. ctl_unfold.
    destruct w as [st T dims obs ref fns ls t]. cbn.
    destruct ref as [[|anchor]|]; reflexivity.
Qed.

(** X9. An empty window renders nothing: when [visibleLength] is zero or
    negative, [shouldItemRender] is false for every index, the index
    [visibleIndexTop] included. *)
Theorem shouldItemRender_empty_window w index :
  visibleLength (state w) <= 0 ->
  eval (shouldItemRender index) w = false.
Proof.
  intros Hlen. unfold shouldItemRender. ctl_unfold. cbn.
  apply andb_false_iff.
  destruct (Z.leb_spec (visibleIndexTop (state w)) index); [right | by left].
  lia.
Qed.

(** X7. Reporting the same node for the same index a second time changes
    neither the stored dimensions nor the anchor, the listeners or the
    cleanups; the height is passed to [updateHeightAtIndex] once more (an
    unchanged height is not filtered out). *)
Theorem onItemRender_twice w index node :
  let w1 := exec (onItemRender index (Some node)) w in
  let w2 := exec (onItemRender index (Some node)) w1 in
  itemDimensions w2 = itemDimensions w1
  /\ scrollParentRef w2 = scrollParentRef w1
  /\ scrollListeners w2 = scrollListeners w1
  /\ willUnmountFns w2 = willUnmountFns w1
  /\ trace w2 = trace w1 ++ height_push (ItemRender index (Some node)).
Proof.
  cbn zeta.
  set (w1 := exec (onItemRender index (Some node)) w).
  assert (Href : exists anchor, scrollParentRef w1 = Some anchor).
  { subst w1. rewrite onItemRender_exec.
    destruct (measured_frame w index node) as (Mref & _).
    destruct (scrollParentRef w) as [anchor|] eqn:E; [|by eexists].
    exists anchor. congruence. }
  destruct Href as [anchor Href].
  rewrite (onItemRender_exec w1), Href.
  destruct (measured_frame w1 index node) as (Mref & Mf & Ms & _).
  split; [|split; [congruence | split; [exact Ms | split; [exact Mf|]]]].
  - unfold measured. replace (itemDimensions _) with
      (<[index := calcItemDimensions node]> (itemDimensions w1))
      by (destruct (calcItemDimensions node); reflexivity).
    subst w1. rewrite itemDimensions_onItemRender. apply insert_insert_eq.
  - unfold measured, height_push.
    destruct (calcItemDimensions node); cbn; [reflexivity | by rewrite app_nil_r].
Qed.

End MoreControllerFacts.

(** ** Further properties of whole lifecycles *)

Section LifecycleFacts.

Context {PI : Type} `{PositionIndex PI}.

Implicit Types (w : World PI) (index : Z) (node : HTMLElement).

Ltac ctl_unfold :=
  unfold exec, eval, state_updateScrollPosition, state_updateHeightAtIndex,
    addEventListener, removeEventListener, emit, modify, gets, ret,
    mbind, Ctl_bind, mret, Ctl_ret in *.

Lemma action_cases (a : Action) :
  (exists index node, a = ItemRender index (Some node))
  \/ (forall index node, a <> ItemRender index (Some node)).
Proof.
  destruct a as [index [node|] | | | ]; [left; eauto | right ..]; congruence.
Qed.

Lemma handleScroll_trace (dom : ScrollOffsets) w :
  let w' := exec (handleScroll dom) w in
  height_calls (trace w') = height_calls (trace w)
  /\ itemResizeObservers w' = itemResizeObservers w.
Proof.
  cbn zeta.
  destruct (handleScroll_forwards_clamped_offset_aux w dom) as [x ->].
  unfold height_calls. cbn. rewrite List.filter_app, app_nil_r. by split.
Qed.

Lemma step_height_calls (a : Action) w :
  height_calls (trace (exec (step a) w))
  = height_calls (trace w) ++ height_push a.
Proof.
  destruct a as [index [node|] | target dom | index | index];
    cbn [step height_push]; try (by rewrite app_nil_r).
  - rewrite onItemRender_exec. unfold height_calls, measured, discovered.
    destruct (scrollParentRef w), (calcItemDimensions node); cbn;
      rewrite ?List.filter_app; cbn; rewrite ?app_nil_r; reflexivity.
  - rewrite dispatchScroll_exec, app_nil_r.
    destruct (existsb _ _); [apply handleScroll_trace | reflexivity].
Qed.

Lemma run_height_calls (actions : list Action) : forall w,
  height_calls (trace (exec (run actions) w))
  = height_calls (trace w) ++ height_pushes actions.
Proof.
  induction actions as [|a actions IH]; intros w.
  - cbn. by rewrite app_nil_r.
  - rewrite run_cons, IH, step_height_calls. unfold height_pushes. cbn.
    by rewrite app_assoc.
Qed.

(** X5. Over any lifecycle from mount, the calls of [updateHeightAtIndex]
    are, in order, one per report whose node could be measured, with the
    reported index and the measured height; scroll events, queries and
    reports without a node or without a box add none. *)
Theorem heights_are_pushed_in_report_order (st : PI) (T : number)
    (actions : list Action) :
  height_calls (trace (exec (run actions) (mount st T))) = height_pushes actions.
Proof. by rewrite run_height_calls. Qed.

Lemma run_itemDimensions (actions : list Action) index : forall w,
  itemDimensions (exec (run actions) w) !! index
  = match last_reported index actions with
    | Some node => Some (calcItemDimensions node)
    | None => itemDimensions w !! index
    end.
Proof.
  induction actions as [|a actions IH]; intros w; [reflexivity|].
  rewrite run_cons, IH. cbn [last_reported].
  destruct (last_reported index actions) as [latest|]; [reflexivity|].
  destruct (action_cases a) as [(j & node & ->) | Hnot].
  - cbn [step]. rewrite itemDimensions_onItemRender.
    destruct (Z.eqb_spec j index) as [->|Hne].
    + by rewrite lookup_insert_eq.
    + by rewrite lookup_insert_ne.
  - destruct (step_frame a w Hnot) as (_ & _ & _ & -> & _).
    destruct a as [j [node|] | | | ]; try reflexivity.
    by destruct (Hnot j node).
Qed.

(** X6. After any lifecycle from mount, [getItemDimensions(i)] answers what
    the latest report for [i] that carried a node measured: its dimensions,
    or null if that node had no box; and null if no report for [i] carried
    a node. Reports for other indices, reports without a node, scroll events
    and queries do not change the answer. *)
Theorem getItemDimensions_is_latest_report (st : PI) (T : number)
    (actions : list Action) index :
  eval (getItemDimensions index) (exec (run actions) (mount st T))
  = match last_reported index actions with
    | Some node => stored (calcItemDimensions node)
    | None => null
    end.
Proof.
  rewrite getItemDimensions_eval. unfold Map_get.
  rewrite (run_itemDimensions actions index (mount st T)).
  destruct (last_reported index actions) as [node|]; [|reflexivity].
  by destruct (calcItemDimensions node).
Qed.

Lemma run_without_listener (actions : list Action) : forall w,
  scrollListeners w = [] ->
  first_rendered actions = None ->
  exec (run actions) w = w.
Proof.
  induction actions as [|a actions IH]; intros w Hls Hfirst; [reflexivity|].
  rewrite run_cons.
  destruct a as [index [node|] | target dom | index | index];
    cbn in Hfirst; try discriminate Hfirst; cbn [step].
  - by apply IH.
  - rewrite dispatchScroll_exec, Hls. by apply IH.
  - by apply IH.
  - by apply IH.
Qed.

(** X3. Until a report carries a node, nothing happens: a lifecycle of
    scroll events (on any target), queries and reports without a node leaves
    the mounted component exactly as it was, so the position index receives
    no call at all. *)
Theorem nothing_happens_before_first_node (st : PI) (T : number)
    (actions : list Action) :
  first_rendered actions = None ->
  exec (run actions) (mount st T) = mount st T.
Proof. intros Hfirst. by apply run_without_listener. Qed.

(** X4. After any lifecycle from mount, a scroll event reaches
    [handleScroll] exactly when its target is the cached anchor; an event on
    any other target, and any event while no anchor is cached, changes
    nothing. *)
Theorem scroll_events_reach_only_the_anchor (st : PI) (T : number)
    (actions : list Action) (target : EventTarget) (dom : ScrollOffsets) :
  let w := exec (run actions) (mount st T) in
  exec (dispatchScroll target dom) w
  = match anchor_of actions with
    | Some anchor =>
        if same_target target anchor then exec (handleScroll dom) w else w
    | None => w
    end.
Proof.
  cbn zeta. rewrite dispatchScroll_exec.
  destruct (run_anchored actions _ (mount_anchored st T)) as [-> _].
  destruct (run_discovery actions (mount st T)) as (Href & _).
  cbn in Href. rewrite Href.
  destruct (anchor_of actions) as [anchor|]; cbn; [|reflexivity].
  by rewrite orb_false_r.
Qed.

Lemma step_observers (a : Action) w :
  itemResizeObservers (exec (step a) w) = itemResizeObservers w.
Proof.
  destruct a as [index [node|] | target dom | index | index];
    cbn [step]; try reflexivity.
  - rewrite onItemRender_exec. unfold measured, discovered.
    destruct (scrollParentRef w), (calcItemDimensions node); reflexivity.
  - rewrite dispatchScroll_exec.
    destruct (existsb _ _); [apply handleScroll_trace | reflexivity].
Qed.

Lemma run_observers (actions : list Action) : forall w,
  itemResizeObservers (exec (run actions) w) = itemResizeObservers w.
Proof.
  induction actions as [|a actions IH]; intros w; [reflexivity|].
  by rewrite run_cons, IH, step_observers.
Qed.

Lemma forEach_teardown_frame (fns : list TeardownFn) : forall w,
  let w' := exec (forEach fns run_teardown) w in
  trace w' = trace w ++ (teardown_event <$> fns)
  /\ willUnmountFns w' = willUnmountFns w
  /\ scrollParentRef w' = scrollParentRef w
  /\ itemDimensions w' = itemDimensions w
  /\ itemResizeObservers w' = itemResizeObservers w
  /\ state w' = state w.
Proof.
  induction fns as [|[target] fns IH]; intros w; cbn zeta.
  - cbn. by rewrite app_nil_r.
  - cbn. ctl_unfold. cbn.
    destruct (IH (set_trace (fun t => t ++ [CallRemoveEventListener target])
                    (set_scrollListeners
                       (List.filter (fun t => negb (same_target target t))) w)))
      as (-> & -> & -> & -> & -> & ->).
    cbn. by rewrite <- app_assoc.
Qed.

Lemma unmount_frame w :
  let w' := exec unmount w in
  trace w' = trace w ++ (teardown_event <$> willUnmountFns w)
  /\ willUnmountFns w' = willUnmountFns w
  /\ scrollParentRef w' = scrollParentRef w
  /\ itemDimensions w' = itemDimensions w
  /\ itemResizeObservers w' = itemResizeObservers w
  /\ state w' = state w.
Proof. apply (forEach_teardown_frame (willUnmountFns w) w). Qed.

(** X10. The map of resize observers stays empty: no report, scroll event,
    query or unmount ever stores an observer in it. *)
Theorem resize_observers_stay_empty (st : PI) (T : number)
    (actions : list Action) :
  let w := exec (run actions) (mount st T) in
  itemResizeObservers w = ∅ /\ itemResizeObservers (exec unmount w) = ∅.
Proof.
  cbn zeta.
  destruct (unmount_frame (exec (run actions) (mount st T)))
    as (_ & _ & _ & _ & -> & _).
  by rewrite run_observers.
Qed.

(** X13. The cleanup keeps what it ran: after [unmount] the list of
    cleanups, the cached anchor, the stored dimensions and the position
    index are as before, and a second run of the cleanup makes the same
    removal calls again, in the same order. *)
Theorem unmount_keeps_cleanups w :
  let w1 := exec unmount w in
  let removals := teardown_event <$> willUnmountFns w in
  willUnmountFns w1 = willUnmountFns w
  /\ scrollParentRef w1 = scrollParentRef w
  /\ itemDimensions w1 = itemDimensions w
  /\ state w1 = state w
  /\ trace w1 = trace w ++ removals
  /\ trace (exec unmount w1) = trace w ++ removals ++ removals.
Proof.
  cbn zeta.
  destruct (unmount_frame (exec unmount w)) as (-> & _).
  destruct (unmount_frame w) as (-> & -> & -> & -> & _ & ->).
  by rewrite <- app_assoc.
Qed.

Lemma step_detached (a : Action) w (anchor : EventTarget) :
  scrollParentRef w = Some anchor ->
  scrollListeners w = [] ->
  let w' := exec (step a) w in
  scrollParentRef w' = Some anchor
  /\ scrollListeners w' = []
  /\ scroll_calls (trace w') = scroll_calls (trace w).
Proof.
  intros Href Hls. cbn zeta.
  destruct a as [index [node|] | target dom | index | index]; cbn [step];
    try (by repeat split).
  - rewrite onItemRender_exec, Href.
    destruct (measured_frame w index node) as (-> & _ & -> & _).
    repeat split; try assumption.
    unfold scroll_calls, measured.
    destruct (calcItemDimensions node); cbn;
      rewrite ?List.filter_app; cbn; rewrite ?app_nil_r; reflexivity.
  - rewrite dispatchScroll_exec, Hls. by repeat split.
Qed.

Lemma run_detached (actions : list Action) (anchor : EventTarget) : forall w,
  scrollParentRef w = Some anchor ->
  scrollListeners w = [] ->
  let w' := exec (run actions) w in
  scrollParentRef w' = Some anchor
  /\ scrollListeners w' = []
  /\ scroll_calls (trace w') = scroll_calls (trace w).
Proof.
  induction actions as [|a actions IH]; intros w Href Hls; cbn zeta;
    [by repeat split|].
  rewrite run_cons.
  destruct (step_detached a w anchor Href Hls) as (Href1 & Hls1 & <-).
  by apply IH.
Qed.

(** X8. Once a node was reported and the component unmounted, nothing that
    follows attaches the scroll listener again: over any further reports,
    scroll events and queries the listener stays detached, the anchor stays
    cached and [updateScrollPosition] is not called. Reports that still
    arrive are measured and their heights are still passed to
    [updateHeightAtIndex]. *)
Theorem no_listener_after_unmount (st : PI) (T : number)
    (actions later : list Action) (first : HTMLElement) :
  first_rendered actions = Some first ->
  let w' := exec unmount (exec (run actions) (mount st T)) in
  let w'' := exec (run later) w' in
  scrollListeners w'' = []
  /\ scrollParentRef w'' = Some (findScrollParent (parentElement first))
  /\ scroll_calls (trace w'') = scroll_calls (trace w')
  /\ height_calls (trace w'') = height_calls (trace w') ++ height_pushes later.
Proof.
  intros Hfirst. cbn zeta.
  set (w := exec (run actions) (mount st T)).
  pose proof (run_anchored actions _ (mount_anchored st T)) as Hanch.
  destruct (run_discovery actions (mount st T)) as (Href & _).
  cbn in Href. fold w in Hanch, Href.
  unfold anchor_of in Href. rewrite Hfirst in Href. cbn in Href.
  assert (Href' : scrollParentRef (exec unmount w)
                  = Some (findScrollParent (parentElement first))).
  { destruct (unmount_frame w) as (_ & _ & -> & _). exact Href. }
  assert (Hls' : scrollListeners (exec unmount w) = []).
  { rewrite (unmount_exec _ Hanch), Href. reflexivity. }
  destruct (run_detached later _ _ Href' Hls') as (-> & -> & ->).
  by rewrite run_height_calls.
Qed.

Lemma layoutEffects_run (items : list (Z * option HTMLElement)) : forall w,
  exec (layoutEffects items) w = exec (run (reports items)) w.
Proof.
  induction items as [|[index ref] items IH]; intros w; [reflexivity|].
  unfold reports. rewrite fmap_cons, run_cons. cbn [step fst snd].
  rewrite <- IH. unfold layoutEffects, WindowedListItem_layoutEffect.
  cbn. ctl_unfold. destruct (onItemRender index ref w) as [[] w1]. reflexivity.
Qed.

Lemma last_reported_absent (items : list (Z * option HTMLElement)) index :
  index ∉ items.*1 -> last_reported index (reports items) = None.
Proof.
  induction items as [|[j ref] items IH]; intros Hnot; [reflexivity|].
  rewrite fmap_cons in Hnot. apply not_elem_of_cons in Hnot as [Hne Hrest].
  cbn [fst] in Hne. unfold reports. rewrite fmap_cons. cbn [last_reported fst snd].
  fold (reports items). rewrite (IH Hrest).
  destruct ref as [node|]; [|reflexivity].
  destruct (Z.eqb_spec j index) as [->|_]; [by destruct Hne | reflexivity].
Qed.

Lemma last_reported_distinct (items : list (Z * option HTMLElement)) index node :
  NoDup items.*1 ->
  (index, Some node) ∈ items ->
  last_reported index (reports items) = Some node.
Proof.
  induction items as [|[j ref] items IH]; intros Hnd Hin.
  - by apply elem_of_nil in Hin.
  - rewrite fmap_cons in Hnd. apply NoDup_cons in Hnd as [Hfresh Hnd].
    cbn [fst] in Hfresh. unfold reports. rewrite fmap_cons. cbn [last_reported fst snd].
    fold (reports items).
    apply elem_of_cons in Hin as [[= <- <-] | Hin].
    + rewrite (last_reported_absent _ _ Hfresh). by rewrite Z.eqb_refl.
    + by rewrite (IH Hnd Hin).
Qed.

(** X14. When the wrappers of pairwise distinct indices have run their
    layout effects on a freshly mounted component, [getItemDimensions]
    answers, for every wrapper whose ref was attached, what its node
    measured (null if the node has no box), and null for every index
    without a wrapper; the heights passed to the position index are those of
    the measurable nodes, in the order of the effects. *)
Theorem layoutEffects_store_each_item (st : PI) (T : number)
    (items : list (Z * option HTMLElement)) :
  NoDup items.*1 ->
  let w := exec (layoutEffects items) (mount st T) in
  (forall index node,
      (index, Some node) ∈ items ->
      eval (getItemDimensions index) w = stored (calcItemDimensions node))
  /\ (forall index, index ∉ items.*1 -> eval (getItemDimensions index) w = null)
  /\ height_calls (trace w) = height_pushes (reports items).
Proof.
  intros Hnd. cbn zeta. rewrite layoutEffects_run.
  split; [|split].
  - intros index node Hin.
    rewrite getItemDimensions_eval. unfold Map_get.
    rewrite (run_itemDimensions (reports items) index (mount st T)),
      (last_reported_distinct _ _ _ Hnd Hin).
    by destruct (calcItemDimensions node).
  - intros index Hnot.
    rewrite getItemDimensions_eval. unfold Map_get.
    by rewrite (run_itemDimensions (reports items) index (mount st T)),
      (last_reported_absent _ _ Hnot).
  - by rewrite run_height_calls.
Qed.

End LifecycleFacts.

(** ** The further properties at the worked inputs *)

Section WorkedLifecycles.

Import Fixtures Scenarios.

Lemma findScrollParent_anchor_is_fixed_witness :
  findScrollParent (Some list_node) = Element pane
  /\ (scrollable pane
      /\ In pane (ancestor_chain (Some list_node))
      /\ findScrollParent (Some pane) = Element pane).
Proof.
  split; [reflexivity|].
  apply (findScrollParent_anchor_is_fixed (Some list_node) pane). reflexivity.
Defined.

Lemma findScrollParent_window_along_chain_witness :
  findScrollParent (parentElement page_item) = Window
  /\ Forall (fun a => findScrollParent (Some a) = Window /\ ~ scrollable a)
       (ancestor_chain (parentElement page_item)).
Proof.
  split; [reflexivity|].
  apply (findScrollParent_window_along_chain (parentElement page_item)).
  reflexivity.
Defined.

Lemma calcItemDimensions_without_margins_witness :
  getClientRects body = [ {| top := px 0; height := px 900 |} ]
  /\ is_zero (parseFloat (getPropertyValue (getComputedStyle body) "margin-top"))
     = true
  /\ is_zero (parseFloat (getPropertyValue (getComputedStyle body) "margin-bottom"))
     = true
  /\ is_zero (height {| top := px 0; height := px 900 |}) = false
  /\ calcItemDimensions body
     = Some {| dim_top := top {| top := px 0; height := px 900 |};
               dim_height := height {| top := px 0; height := px 900 |} |}.
Proof.
  split; [reflexivity|]. split; [vm_compute; reflexivity|].
  split; [vm_compute; reflexivity|]. split; [vm_compute; reflexivity|].
  apply (calcItemDimensions_without_margins body
           {| top := px 0; height := px 900 |} []).
  - reflexivity.
  - vm_compute. reflexivity.
  - vm_compute. reflexivity.
  - vm_compute. reflexivity.
Defined.

Lemma nothing_happens_before_first_node_witness :
  first_rendered idle = None
  /\ exec (run idle) (mount index_4_16 (px 30)) = mount index_4_16 (px 30).
Proof.
  split; [reflexivity|].
  apply (nothing_happens_before_first_node index_4_16 (px 30) idle).
  reflexivity.
Defined.

Lemma no_listener_after_unmount_witness :
  first_rendered remeasured = Some item
  /\ (let w' := exec unmount (exec (run remeasured) (mount index_4_16 (px 30))) in
      let w'' := exec (run (idle ++ [ItemRender 3 (Some item)])) w' in
      scrollListeners w'' = []
      /\ scrollParentRef w'' = Some (findScrollParent (parentElement item))
      /\ scroll_calls (trace w'') = scroll_calls (trace w')
      /\ height_calls (trace w'')
         = height_calls (trace w')
           ++ height_pushes (idle ++ [ItemRender 3 (Some item)])).
Proof.
  split; [reflexivity|].
  apply (no_listener_after_unmount index_4_16 (px 30) remeasured
           (idle ++ [ItemRender 3 (Some item)]) item).
  reflexivity.
Defined.

Lemma layoutEffects_store_each_item_witness :
  NoDup wrappers.*1
  /\ (let w := exec (layoutEffects wrappers) (mount index_4_16 (px 30)) in
      (forall index node,
          (index, Some node) ∈ wrappers ->
          eval (getItemDimensions index) w = stored (calcItemDimensions node))
      /\ (forall index, index ∉ wrappers.*1 ->
                        eval (getItemDimensions index) w = null)
      /\ height_calls (trace w) = height_pushes (reports wrappers)).
Proof.
  assert (Hnd : NoDup wrappers.*1).
  { apply (bool_decide_eq_true_1 (NoDup wrappers.*1)). vm_compute. reflexivity. }
  split; [exact Hnd|].
  apply (layoutEffects_store_each_item index_4_16 (px 30) wrappers Hnd).
Defined.

(** The lifecycle [remeasured] at work: item 0 ends up without dimensions,
    item 1 with a NaN height, and the position index was told two heights
    and one scroll offset. *)
Example remeasured_lifecycle :
  let w := exec (run remeasured) fresh in
  eval (getItemDimensions 0) w = null
  /\ eval (getItemDimensions 1) w
     = object {| dim_top := px 60; dim_height := NaN |}
  /\ position_index_calls (trace w)
     = [ CallUpdateHeightAtIndex 0 (px 35);
         CallUpdateHeightAtIndex 1 NaN;
         CallUpdateScrollPosition (px 70) ].
Proof. vm_compute. repeat split. Qed.

Lemma shouldItemRender_empty_window_witness :
  visibleLength (state (mount index_empty zero)) <= 0
  /\ eval (shouldItemRender 4) (mount index_empty zero) = false.
Proof.
  split; [simpl; lia|].
  apply (shouldItemRender_empty_window (mount index_empty zero) 4).
  simpl. lia.
Defined.

End WorkedLifecycles.
